(** * fts-result: the Result type of [src/Result.ts]

    A shallow embedding of the TypeScript module [src/Result.ts] and the
    verification of its algebraic contract.

    TypeScript is embedded as follows.
    - A JavaScript value of static type [any] is a [JSValue].  Numbers are
      IEEE-754 doubles, represented by the Standard Library's [spec_float].
    - Code runs against a heap of objects that have an identity
      ([new Error(..)] allocates) and either completes normally with a value
      or abruptly with a thrown value; the heap survives a [throw].  This is
      the monad [JS X A], with [X] the type of thrown values.
    - A callback is a function into [JS]: it may read and write the heap and
      may throw.  A pure callback is one of the form [pure f].
    - The two classes [_Err] and [_Ok] are the constructors of [Result];
      a method call [r.m(..)] dispatches on the constructor of [r].
      Results are immutable records of readonly fields and are compared
      by their contents. *)

From Stdlib Require Import String List ZArith Bool Arith Lia.
From Stdlib Require Import Floats.SpecFloat.
From ExtLib Require Import Structures.Monad Structures.MonadExc.
Import ListNotations.
Import MonadNotation.
Local Open Scope monad_scope.
Local Open Scope string_scope.
Local Open Scope list_scope.

(* ===================================================================== *)
(** ** JavaScript values and the heap *)
(* ===================================================================== *)

(** Address of an object on the heap. *)
Definition loc := nat.

Inductive JSValue : Type :=
| JSUndefined
| JSNull
| JSBoolean (b : bool)
| JSNumber (x : spec_float)
| JSBigInt (z : Z)
| JSString (s : string)
| JSSymbol (id : nat)
| JSObject (l : loc).

(** The double nearest to an integer literal. *)
Definition number_of_Z (z : Z) : JSValue :=
  JSNumber (binary_normalize 53 1024 z 0 false).

(** ECMAScript [ToBoolean], the test performed by [if (x)]. *)
Definition ToBoolean (x : JSValue) : bool :=
  match x with
  | JSUndefined => false
  | JSNull => false
  | JSBoolean b => b
  | JSNumber (S754_zero _) => false
  | JSNumber S754_nan => false
  | JSNumber _ => true
  | JSBigInt z => negb (Z.eqb z 0)
  | JSString s => negb (String.eqb s "")
  | JSSymbol _ => true
  | JSObject _ => true
  end.

(** The values the language calls falsy, listed one by one. *)
Inductive falsy : JSValue -> Prop :=
| falsy_undefined : falsy JSUndefined
| falsy_null : falsy JSNull
| falsy_false : falsy (JSBoolean false)
| falsy_zero : forall s, falsy (JSNumber (S754_zero s))
| falsy_nan : falsy (JSNumber S754_nan)
| falsy_bigint_zero : falsy (JSBigInt 0)
| falsy_empty_string : falsy (JSString "").

(** Objects that live on the heap: [Error] instances and call-counting
    mock functions (spies). *)
Inductive HeapObject : Type :=
| ErrorObject (message : string)
| MockFunction (calls : nat).

Definition Heap := list HeapObject.

(** A value is live in a heap when the object it refers to, if any, has
    been allocated there. *)
Definition live (h : Heap) (x : JSValue) : Prop :=
  match x with
  | JSObject l => l < length h
  | _ => True
  end.

(* ===================================================================== *)
(** ** Computations: heap passing and abrupt completion *)
(* ===================================================================== *)

Inductive Completion (X A : Type) : Type :=
| Normal (a : A)
| Throw (x : X).

Arguments Normal {X A} a.
Arguments Throw {X A} x.

Definition JS (X A : Type) : Type := Heap -> Completion X A * Heap.

#[global] Instance Monad_JS {X : Type} : Monad (JS X) :=
  {| ret := fun _ a h => (Normal a, h);
     bind := fun _ _ m k h =>
       match m h with
       | (Normal a, h') => k a h'
       | (Throw x, h') => (Throw x, h')
       end |}.

(** [raise] is [throw]; [catch body handler] is [try body catch handler]. *)
#[global] Instance Exc_JS {X : Type} : MonadExc X (JS X) :=
  {| raise := fun _ x h => (Throw x, h);
     catch := fun _ body handler h =>
       match body h with
       | (Normal a, h') => (Normal a, h')
       | (Throw x, h') => handler x h'
       end |}.

(** A callback without effects. *)
Definition pure {X A B : Type} (f : A -> B) : A -> JS X B :=
  fun a => ret (f a).

(** [new Error(message)]: allocates a fresh object. *)
Definition new_Error {X : Type} (message : string) : JS X JSValue :=
  fun h => (Normal (JSObject (length h)), h ++ [ErrorObject message]).

(** Call count of the mock function at [l]. *)
Definition calls (l : loc) (h : Heap) : nat :=
  match nth_error h l with
  | Some (MockFunction n) => n
  | _ => 0
  end.

Fixpoint record_call (l : loc) (h : Heap) : Heap :=
  match h, l with
  | [], _ => []
  | MockFunction n :: t, O => MockFunction (S n) :: t
  | o :: t, O => o :: t
  | o :: t, S l' => o :: record_call l' t
  end.

(** A spy: the mock function at [l] wrapping [impl]; every call is counted
    before [impl] runs. *)
Definition mock {X A B : Type} (l : loc) (impl : A -> JS X B) : A -> JS X B :=
  fun a h => impl a (record_call l h).

(* ===================================================================== *)
(** ** The Result type *)
(* ===================================================================== *)

(** [type Result<E, V> = _Err<E, V> | _Ok<E, V>]. *)
Inductive Result (E V : Type) : Type :=
| _Err (err : E)
| _Ok (value : V).

Arguments _Err {E V} err.
Arguments _Ok {E V} value.

(** The [readonly kind] field of the two classes. *)
Definition kind {E V : Type} (result : Result E V) : string :=
  match result with
  | _Err _ => "Err"
  | _Ok _ => "Ok"
  end.

(** The factory functions. *)
Definition Err {E V : Type} (err : E) : Result E V := _Err err.
Definition Ok {E V : Type} (value : V) : Result E V := _Ok value.

Definition isOk {E V : Type} (result : Result E V) : bool :=
  String.eqb (kind result) "Ok".

Definition isErr {E V : Type} (result : Result E V) : bool :=
  negb (isOk result).

(** [nullable] has type [any]; the branch is taken on its truthiness. *)
Definition fromNullable {E : Type} (nullable : JSValue) (errorIfNull : E)
  : Result E JSValue :=
  if ToBoolean nullable then Ok nullable else Err errorIfNull.

(** The callback types.  [FmapFunction] is imported from fts-functor,
    [BindFunction] and [SequenceFunction] from fts-monad, where they return
    a [Monad<Vo>]; for this module that monad is [Result<E, Vo>]. *)
Definition FmapFunction (X V Vo : Type) : Type := V -> JS X Vo.
Definition BindFunction (X E V Vo : Type) : Type := V -> JS X (Result E Vo).
Definition SequenceFunction (X E Vo : Type) : Type :=
  unit -> JS X (Result E Vo).
Definition ErrMapFunction (X Ei Eo : Type) : Type := Ei -> JS X Eo.

(** The argument of [then]: a union of the two function types.  The two
    members differ by their declared arity. *)
Definition BindOrSequenceFunction (X E V Vo : Type) : Type :=
  (BindFunction X E V Vo + SequenceFunction X E Vo)%type.

Section Methods.

Context {X E : Type}.

(** [defaultThen] is imported from the package fts-monad, which is not part
    of this repository; the methods are parameterised by it. *)
Variable defaultThen :
  forall V Vo : Type, V -> BindOrSequenceFunction X E V Vo -> JS X (Result E Vo).

(** *** class [_Err]; the first argument is [this.err] *)

Definition _Err_fmap {V Vo : Type} (err : E)
  (fmapFunction : FmapFunction X V Vo) : JS X (Result E Vo) :=
  ret (Err err).

Definition _Err_bind {V Vo : Type} (err : E)
  (bindFun : BindFunction X E V Vo) : JS X (Result E Vo) :=
  ret (Err err).

Definition _Err_seq {Vo : Type} (err : E)
  (sequenceFunction : SequenceFunction X E Vo) : JS X (Result E Vo) :=
  ret (Err err).

Definition _Err_then {V Vo : Type} (err : E)
  (bindOrSequenceFunction : BindOrSequenceFunction X E V Vo)
  : JS X (Result E Vo) :=
  ret (Err err).

Definition _Err_mapErr {V Eo : Type} (err : E)
  (errMapFun : ErrMapFunction X E Eo) : JS X (Result Eo V) :=
  e <- errMapFun err ;; ret (Err e).

(** *** class [_Ok]; the first argument is [this.value] *)

Definition _Ok_fmap {V Vo : Type} (value : V)
  (fmapFunction : FmapFunction X V Vo) : JS X (Result E Vo) :=
  v <- fmapFunction value ;; ret (Ok v).

Definition _Ok_bind {V Vo : Type} (value : V)
  (bindFun : BindFunction X E V Vo) : JS X (Result E Vo) :=
  bindFun value.

Definition _Ok_seq {V Vo : Type} (value : V)
  (sequenceFunction : SequenceFunction X E Vo) : JS X (Result E Vo) :=
  sequenceFunction tt.

Definition _Ok_then {V Vo : Type} (value : V)
  (bindOrSequenceFunction : BindOrSequenceFunction X E V Vo)
  : JS X (Result E Vo) :=
  defaultThen V Vo value bindOrSequenceFunction.

Definition _Ok_mapErr {V Eo : Type} (value : V)
  (errMapFun : ErrMapFunction X E Eo) : JS X (Result Eo V) :=
  ret (Ok value).

(** *** Method calls [this.m(..)]: dispatch on the class of [this] *)

Definition fmap {V Vo : Type} (this : Result E V)
  (fmapFunction : FmapFunction X V Vo) : JS X (Result E Vo) :=
  match this with
  | _Err err => _Err_fmap err fmapFunction
  | _Ok value => _Ok_fmap value fmapFunction
  end.

Definition bind {V Vo : Type} (this : Result E V)
  (bindFun : BindFunction X E V Vo) : JS X (Result E Vo) :=
  match this with
  | _Err err => _Err_bind err bindFun
  | _Ok value => _Ok_bind value bindFun
  end.

Definition seq {V Vo : Type} (this : Result E V)
  (sequenceFunction : SequenceFunction X E Vo) : JS X (Result E Vo) :=
  match this with
  | _Err err => _Err_seq err sequenceFunction
  | _Ok value => _Ok_seq value sequenceFunction
  end.

Definition then_ {V Vo : Type} (this : Result E V)
  (bindOrSequenceFunction : BindOrSequenceFunction X E V Vo)
  : JS X (Result E Vo) :=
  match this with
  | _Err err => _Err_then err bindOrSequenceFunction
  | _Ok value => _Ok_then value bindOrSequenceFunction
  end.

Definition mapErr {V Eo : Type} (this : Result E V)
  (errMapFun : ErrMapFunction X E Eo) : JS X (Result Eo V) :=
  match this with
  | _Err err => _Err_mapErr err errMapFun
  | _Ok value => _Ok_mapErr value errMapFun
  end.

(** *** Free functions *)

Definition unbox {V R : Type} (result : Result E V)
  (okCallback : V -> JS X R) (errCallback : E -> JS X R) : JS X R :=
  match result with
  | _Ok value => okCallback value
  | _Err err => errCallback err
  end.

(** *** Chains of method calls

    [Chain V V'] is a sequence [.m1(c1).m2(c2)...] of calls of [fmap],
    [bind], [seq] and [then] that takes a [Result<E, V>] to a
    [Result<E, V'>]; [run_chain] performs the calls from left to right. *)

Inductive Chain : Type -> Type -> Type :=
| Done : forall V, Chain V V
| CallFmap : forall V Vo V', FmapFunction X V Vo -> Chain Vo V' -> Chain V V'
| CallBind : forall V Vo V', BindFunction X E V Vo -> Chain Vo V' -> Chain V V'
| CallSeq : forall V Vo V',
    SequenceFunction X E Vo -> Chain Vo V' -> Chain V V'
| CallThen : forall V Vo V',
    BindOrSequenceFunction X E V Vo -> Chain Vo V' -> Chain V V'.

Fixpoint run_chain {V V' : Type} (c : Chain V V')
  : Result E V -> JS X (Result E V') :=
  match c in Chain V V' return Result E V -> JS X (Result E V') with
  | Done _ => fun r => ret r
  | CallFmap _ _ _ f c' => fun r => r' <- fmap r f ;; run_chain c' r'
  | CallBind _ _ _ f c' => fun r => r' <- bind r f ;; run_chain c' r'
  | CallSeq _ _ _ g c' => fun r => r' <- seq r g ;; run_chain c' r'
  | CallThen _ _ _ f c' => fun r => r' <- then_ r f ;; run_chain c' r'
  end.

End Methods.

Arguments Chain X E : clear implicits.
Arguments Done {X E V}.
Arguments CallFmap {X E V Vo V'} _ _.
Arguments CallBind {X E V Vo V'} _ _.
Arguments CallSeq {X E V Vo V'} _ _.
Arguments CallThen {X E V Vo V'} _ _.

(** [try { const value = f(); return Ok(value); } catch (err) { return
    Err(err); }]: whatever [f] throws becomes the error payload. *)
Definition fromException {E V : Type}
  (exceptionRaisingFunction : unit -> JS E V) : JS E (Result E V) :=
  catch (value <- exceptionRaisingFunction tt ;; ret (Ok value))
        (fun err => ret (Err err)).

Definition fromOk {E V : Type} (result : Result E V) : JS E V :=
  unbox result (fun value => ret value) (fun err => raise err).

Definition fromErr {E V : Type} (result : Result E V) : JS JSValue E :=
  unbox result
    (fun value =>
       e <- new_Error "fromErr was called with an Ok Result" ;; raise e)
    (fun err => ret err).

(** [ErrChain E E'] is a sequence [.mapErr(c1).mapErr(c2)...] of calls that
    takes a [Result<E, V>] to a [Result<E', V>]; [run_err_chain] performs
    the calls from left to right. *)
Inductive ErrChain (X : Type) : Type -> Type -> Type :=
| ErrDone : forall E, ErrChain X E E
| CallMapErr : forall E Eo E',
    ErrMapFunction X E Eo -> ErrChain X Eo E' -> ErrChain X E E'.

Arguments ErrDone {X E}.
Arguments CallMapErr {X E Eo E'} _ _.

Fixpoint run_err_chain {X V E E' : Type} (c : ErrChain X E E')
  : Result E V -> JS X (Result E' V) :=
  match c in ErrChain _ E E' return Result E V -> JS X (Result E' V) with
  | ErrDone => fun r => ret r
  | CallMapErr f c' => fun r => r' <- mapErr r f ;; run_err_chain c' r'
  end.

(** Modelled from the spec: [defaultThen] of the package fts-monad, which
    [_Ok.then] calls and which is not part of this repository.  It
    delegates to the value-consuming function when given one and calls a
    no-argument function without arguments, choosing by declared arity. *)
Definition defaultThen_spec {X E : Type} (V Vo : Type) (value : V)
  (bindOrSequenceFunction : BindOrSequenceFunction X E V Vo)
  : JS X (Result E Vo) :=
  match bindOrSequenceFunction with
  | inl bindFun => bindFun value
  | inr sequenceFunction => sequenceFunction tt
  end.

(** Unfolds the methods down to heap-passing functions. *)
Ltac run_methods :=
  unfold fmap, bind, seq, then_, mapErr, unbox,
    _Err_fmap, _Err_bind, _Err_seq, _Err_then, _Err_mapErr,
    _Ok_fmap, _Ok_bind, _Ok_seq, _Ok_then, _Ok_mapErr, mock, pure;
  simpl.

(* ===================================================================== *)
(** ** Running the module: the package's examples and tests *)
(* ===================================================================== *)

Example ok_kind : kind (Ok (number_of_Z 5) : Result JSValue JSValue) = "Ok".
Proof. reflexivity. Qed.

Example fromNullable_12 :
  fromNullable (number_of_Z 12) "should never see this"
  = Ok (number_of_Z 12).
Proof. reflexivity. Qed.

Example fromNullable_null :
  fromNullable JSNull "null instead of value" = Err "null instead of value".
Proof. reflexivity. Qed.

Example unbox_err_test :
  unbox (X := JSValue) (Err "Some Error" : Result string Z)
        (fun value => ret (Some value)) (fun err => ret None) []
  = (Normal None, []).
Proof. reflexivity. Qed.

Example bind_ok_test :
  bind (X := JSValue) (Ok 5%Z : Result string Z)
       (fun value => ret (Ok (value * 2)%Z)) []
  = (Normal (Ok 10%Z), []).
Proof. reflexivity. Qed.

Example fromException_throwing :
  fromException (V := Z) (fun _ => e <- new_Error "x" ;; raise e) []
  = (Normal (Err (JSObject 0)), [ErrorObject "x"]).
Proof. reflexivity. Qed.

Example fromErr_ok_5 :
  fromErr (Ok 5%Z : Result string Z) [MockFunction 0]
  = (Throw (JSObject 1),
     [MockFunction 0; ErrorObject "fromErr was called with an Ok Result"]).
Proof. reflexivity. Qed.

(** The chaining example of the README, with a spy on each callback: the
    first two callbacks run once, the one after the failure never. *)
Example chaining_example :
  run_chain (X := JSValue) defaultThen_spec
    (CallFmap (mock 0 (pure (fun v => v + 2)%Z))
       (CallThen (inl (mock 1 (fun _ => ret (Err "Something is wrong"))))
          (CallFmap (mock 2 (pure (fun v => v / 11)%Z)) Done)))
    (Ok 5%Z) [MockFunction 0; MockFunction 0; MockFunction 0]
  = (Normal (Err "Something is wrong"),
     [MockFunction 1; MockFunction 1; MockFunction 0]).
Proof. reflexivity. Qed.

(* ===================================================================== *)
(** ** Facts about the heap *)
(* ===================================================================== *)

Lemma record_call_length : forall h l, length (record_call l h) = length h.
Proof.
  induction h as [|o t IH]; intros l.
  - destruct l; reflexivity.
  - destruct l as [|l'].
    + destruct o; reflexivity.
    + destruct o; simpl; now rewrite IH.
Qed.

Lemma calls_record_call_same : forall h l n,
  nth_error h l = Some (MockFunction n) ->
  calls l (record_call l h) = S n.
Proof.
  unfold calls.
  induction h as [|o t IH]; intros l n Hl.
  - destruct l; discriminate.
  - destruct l as [|l'].
    + simpl in Hl. injection Hl as ->. reflexivity.
    + simpl in Hl. destruct o; simpl; now apply IH.
Qed.

Lemma calls_record_call_other : forall h l l',
  l <> l' -> calls l' (record_call l h) = calls l' h.
Proof.
  unfold calls.
  induction h as [|o t IH]; intros l l' Hne.
  - destruct l; reflexivity.
  - destruct l as [|k], l' as [|k'].
    + congruence.
    + destruct o; reflexivity.
    + destruct o; reflexivity.
    + assert (k <> k') by congruence.
      destruct o; simpl; now apply IH.
Qed.

(** The address handed out by the next allocation is not in use, and so
    differs from every live value. *)
Lemma fresh_not_allocated : forall h : Heap, nth_error h (length h) = None.
Proof. intros h. apply nth_error_None. apply Nat.le_refl. Qed.

Lemma fresh_not_live : forall (h : Heap) (x : JSValue),
  live h x -> JSObject (length h) <> x.
Proof.
  intros h x Hlive Heq. subst x. simpl in Hlive. lia.
Qed.

Lemma ToBoolean_false_falsy : forall x, ToBoolean x = false <-> falsy x.
Proof.
  intros x. split.
  - destruct x as [| |b|f|z|s|i|l]; simpl; intros H;
      try discriminate; try constructor.
    + destruct b; [discriminate | constructor].
    + destruct f; try discriminate; constructor.
    + apply negb_false_iff, Z.eqb_eq in H. subst z. constructor.
    + apply negb_false_iff, String.eqb_eq in H. subst s. constructor.
  - intros H. destruct H; reflexivity.
Qed.

(* ===================================================================== *)
(** ** Inspection and construction *)
(* ===================================================================== *)

(** C10.  [isOk r] holds exactly when the tag of [r] is ["Ok"], that is when
    [r] is a Success; [isErr r] is the negation of [isOk r]; hence
    [isOk (Ok v)] is true and [isErr (Ok v)] false, [isErr (Err e)] is true
    and [isOk (Err e)] false. *)
Theorem isOk_isErr_tag : forall (E V : Type) (r : Result E V),
  (isOk r = true <-> kind r = "Ok") /\
  (isOk r = true <-> exists v, r = Ok v) /\
  isErr r = negb (isOk r) /\
  (isErr r = true <-> exists e, r = Err e) /\
  (forall v : V, isOk (Ok v : Result E V) = true /\
                 isErr (Ok v : Result E V) = false) /\
  (forall e : E, isErr (Err e : Result E V) = true /\
                 isOk (Err e : Result E V) = false).
Proof.
  intros E V r. repeat split; try reflexivity.
  - intros H. now apply String.eqb_eq.
  - intros H. unfold isOk. now apply String.eqb_eq.
  - destruct r as [e|v]; [discriminate | now exists v].
  - intros [v ->]. reflexivity.
  - destruct r as [e|v]; [now exists e | discriminate].
  - intros [e ->]. reflexivity.
Qed.

Lemma isOk_isErr_tag_witness :
  isOk (Ok 5%Z : Result string Z) = true /\
  isErr (Err "m" : Result string Z) = true.
Proof.
  split.
  - apply (proj2 (proj1 (proj2 (isOk_isErr_tag string Z (Ok 5%Z))))).
    exists 5%Z. reflexivity.
  - apply (proj2 (proj1 (proj2 (proj2 (proj2
             (isOk_isErr_tag string Z (Err "m"))))))).
    exists "m". reflexivity.
Defined.

(** C4.  [fromNullable nullable errorIfNull] is [Ok nullable] exactly when
    [nullable] is truthy and [Err errorIfNull] otherwise; the inputs sent to
    [Err] are exactly the falsy values: not only [null] and [undefined] but
    also [0], [-0], [NaN], [0n], the empty string and [false]. *)
Theorem fromNullable_truthiness :
  forall (E : Type) (nullable : JSValue) (errorIfNull : E),
  (fromNullable nullable errorIfNull = Ok nullable
     <-> ToBoolean nullable = true) /\
  (fromNullable nullable errorIfNull = Err errorIfNull
     <-> ToBoolean nullable = false) /\
  (fromNullable nullable errorIfNull = Err errorIfNull <-> falsy nullable) /\
  fromNullable JSNull errorIfNull = Err errorIfNull /\
  fromNullable JSUndefined errorIfNull = Err errorIfNull /\
  fromNullable (number_of_Z 0) errorIfNull = Err errorIfNull /\
  fromNullable (JSString "") errorIfNull = Err errorIfNull /\
  fromNullable (JSBoolean false) errorIfNull = Err errorIfNull.
Proof.
  intros E nullable errorIfNull.
  assert (Hok : fromNullable nullable errorIfNull = Ok nullable
                <-> ToBoolean nullable = true).
  { unfold fromNullable. destruct (ToBoolean nullable); split;
      intros H; try reflexivity; discriminate. }
  assert (Herr : fromNullable nullable errorIfNull = Err errorIfNull
                 <-> ToBoolean nullable = false).
  { unfold fromNullable. destruct (ToBoolean nullable); split;
      intros H; try reflexivity; discriminate. }
  repeat split; try reflexivity; try apply Hok; try apply Herr.
  - intros H. now apply ToBoolean_false_falsy, Herr.
  - intros H. now apply Herr, ToBoolean_false_falsy.
Qed.

Lemma fromNullable_truthiness_witness :
  fromNullable (number_of_Z 12) "e" = Ok (number_of_Z 12) /\
  fromNullable (JSNumber S754_nan) "e" = Err "e".
Proof.
  split.
  - apply (proj2 (proj1 (fromNullable_truthiness string (number_of_Z 12) "e"))).
    reflexivity.
  - apply (proj2 (proj1 (proj2 (proj2
             (fromNullable_truthiness string (JSNumber S754_nan) "e"))))).
    constructor.
Defined.

(* ===================================================================== *)
(** ** Elimination *)
(* ===================================================================== *)

(** C5.  [unbox (Ok v) okFn errFn] is the call [okFn v] and does not depend
    on [errFn]; [unbox (Err e) okFn errFn] is the call [errFn e] and does
    not depend on [okFn].  With a spy on each callback, the selected spy
    records exactly one call and the other none. *)
Theorem unbox_eliminator :
  forall (X E V R : Type) (okFn : V -> JS X R) (errFn : E -> JS X R)
         (h : Heap),
  (forall v, unbox (Ok v) okFn errFn h = okFn v h) /\
  (forall e, unbox (Err e) okFn errFn h = errFn e h) /\
  (forall (f : V -> R) (g : E -> R) (lo le : loc) (n m : nat),
      lo <> le ->
      nth_error h lo = Some (MockFunction n) ->
      nth_error h le = Some (MockFunction m) ->
      (forall v, exists h',
          unbox (X := X) (Ok v) (mock lo (pure f)) (mock le (pure g)) h
          = (Normal (f v), h') /\
          calls lo h' = S n /\ calls le h' = m) /\
      (forall e, exists h',
          unbox (X := X) (Err e) (mock lo (pure f)) (mock le (pure g)) h
          = (Normal (g e), h') /\
          calls lo h' = n /\ calls le h' = S m)).
Proof.
  intros X E V R okFn errFn h. split; [reflexivity|]. split; [reflexivity|].
  intros f g lo le n m Hne Hlo Hle.
  assert (Clo : calls lo h = n) by (unfold calls; now rewrite Hlo).
  assert (Cle : calls le h = m) by (unfold calls; now rewrite Hle).
  split.
  - intros v. exists (record_call lo h). split; [reflexivity|]. split.
    + now apply calls_record_call_same.
    + now rewrite calls_record_call_other.
  - intros e. exists (record_call le h). split; [reflexivity|]. split.
    + rewrite calls_record_call_other; auto.
    + now apply calls_record_call_same.
Qed.

Lemma unbox_eliminator_witness :
  exists h',
    unbox (X := JSValue) (Ok 5%Z : Result string Z)
          (mock 0 (pure (fun v => Some v))) (mock 1 (pure (fun _ => None)))
          [MockFunction 0; MockFunction 0]
    = (Normal (Some 5%Z), h') /\ calls 0 h' = 1 /\ calls 1 h' = 0.
Proof.
  apply (proj1 (proj2 (proj2
           (unbox_eliminator JSValue string Z (option Z)
              (fun v => ret (Some v)) (fun _ => ret None)
              [MockFunction 0; MockFunction 0]))
           (fun v => Some v) (fun _ => None) 0 1 0 0
           ltac:(discriminate) eq_refl eq_refl)).
Defined.

(* ===================================================================== *)
(** ** Transformation and chaining *)
(* ===================================================================== *)

(** Two successive [fmap]s are one [fmap] with the composed callback, for
    every receiver and for callbacks with effects as well. *)
Lemma fmap_compose :
  forall (X E V V1 V2 : Type) (m : Result E V)
         (f : FmapFunction X V V1) (g : FmapFunction X V1 V2) (h : Heap),
  (r <- fmap m f ;; fmap r g) h
  = fmap m (fun x => y <- f x ;; g y) h.
Proof.
  intros X E V V1 V2 m f g h. destruct m as [e|v]; run_methods.
  - reflexivity.
  - destruct (f v h) as [[y|x] h1]; simpl; [|reflexivity].
    destruct (g y h1) as [[z|x] h2]; reflexivity.
Qed.

(** C1.  Functor laws: mapping the identity over [Ok v] gives [Ok v],
    over [Err e] gives [Err e], and mapping [f] then [g] over [Ok v] gives
    the same as mapping [fun x => g (f x)], for pure [f] and [g]. *)
Theorem fmap_functor_laws :
  forall (X E V V1 V2 : Type) (v : V) (e : E) (f : V -> V1) (g : V1 -> V2)
         (h : Heap),
  fmap (X := X) (Ok v : Result E V) (pure (fun x => x)) h
    = (Normal (Ok v), h) /\
  fmap (X := X) (Err e : Result E V) (pure (fun x => x)) h
    = (Normal (Err e), h) /\
  (r <- fmap (X := X) (Ok v : Result E V) (pure f) ;; fmap r (pure g)) h
    = fmap (Ok v) (pure (fun x => g (f x))) h.
Proof.
  intros X E V V1 V2 v e f g h.
  split; [reflexivity|]. split; [reflexivity|].
  rewrite fmap_compose. reflexivity.
Qed.

(** C2.  Monad laws: [bind (Ok v) f] is [f v] (left identity); for every
    Result [m], binding [f] then [g] is binding
    [fun v => f v then bind g] (associativity). *)
Theorem bind_monad_laws :
  forall (X E V V1 V2 : Type) (f : BindFunction X E V V1)
         (g : BindFunction X E V1 V2) (h : Heap),
  (forall v : V, bind (Ok v) f h = f v h) /\
  (forall m : Result E V,
      (r <- bind m f ;; bind r g) h
      = bind m (fun v => r <- f v ;; bind r g) h).
Proof.
  intros X E V V1 V2 f g h. split; [reflexivity|].
  intros [e|v]; reflexivity.
Qed.

(** C3.  Failure is absorbing: whatever chain of [fmap], [bind], [seq] and
    [then] calls is applied to [Err e], it completes normally with [Err e]
    and leaves the heap as it was, whatever the callbacks are; none of them
    has run, and the call count of every spy is what it was. *)
Theorem failure_absorbing :
  forall (X E : Type)
         (defaultThen : forall V Vo : Type,
             V -> BindOrSequenceFunction X E V Vo -> JS X (Result E Vo))
         (V V' : Type) (c : Chain X E V V') (e : E) (h : Heap),
  run_chain defaultThen c (Err e) h = (Normal (Err e), h) /\
  (forall l : loc,
      calls l (snd (run_chain defaultThen c (Err e) h)) = calls l h).
Proof.
  intros X E defaultThen V V' c e h.
  assert (Hrun : run_chain defaultThen c (Err e) h = (Normal (Err e), h)).
  { induction c as [V|V Vo V' f c' IH|V Vo V' f c' IH
                    |V Vo V' g c' IH|V Vo V' f c' IH]; simpl.
    - reflexivity.
    - apply IH.
    - apply IH.
    - apply IH.
    - apply IH. }
  split; [exact Hrun|]. intros l. now rewrite Hrun.
Qed.

(** C8.  [mapErr] on [Err e] is a Failure carrying [f e]; on [Ok v] it is
    [Ok v], whatever [f] is: [f] does not run. *)
Theorem mapErr_spec :
  forall (X E Eo V : Type) (f : ErrMapFunction X E Eo) (h : Heap),
  (forall (e : E) (e' : Eo) (h' : Heap),
      f e h = (Normal e', h') ->
      mapErr (V := V) (Err e) f h = (Normal (Err e'), h')) /\
  (forall (p : E -> Eo) (e : E),
      mapErr (X := X) (V := V) (Err e) (pure p) h
      = (Normal (Err (p e)), h)) /\
  (forall v : V, mapErr (Ok v) f h = (Normal (Ok v), h)) /\
  (forall (v : V) (l : loc),
      calls l (snd (mapErr (Ok v : Result E V) (mock l f) h)) = calls l h).
Proof.
  intros X E Eo V f h. repeat split.
  intros e e' h' Hf. run_methods. now rewrite Hf.
Qed.

Lemma mapErr_spec_witness :
  mapErr (X := JSValue) (V := Z) (Err "old")
         (mock 0 (pure (fun _ => "new"))) [MockFunction 0]
  = (Normal (Err "new"), [MockFunction 1]).
Proof.
  apply (proj1 (mapErr_spec JSValue string string Z
                  (mock 0 (pure (fun _ => "new"))) [MockFunction 0])).
  reflexivity.
Defined.

(** C9.  [seq] on [Ok v] calls [g] with no arguments and returns what it
    returns, whatever [v] is (a spy on [g] records one call); on [Err e] it
    is [Err e] and [g] does not run. *)
Theorem seq_spec :
  forall (X E V Vo : Type) (g : SequenceFunction X E Vo) (h : Heap),
  (forall v : V, seq (Ok v) g h = g tt h) /\
  (forall v v' : V, seq (Ok v) g h = seq (Ok v') g h) /\
  (forall (v : V) (l : loc),
      seq (Ok v) (mock l g) h = g tt (record_call l h)) /\
  (forall e : E, seq (V := V) (Err e) g h = (Normal (Err e), h)) /\
  (forall (e : E) (l : loc),
      calls l (snd (seq (V := V) (Err e) (mock l g) h)) = calls l h).
Proof.
  intros X E V Vo g h. repeat split.
Qed.

(* ===================================================================== *)
(** ** The exception boundary *)
(* ===================================================================== *)

(** C6.  If [fn ()] returns [v], [fromException fn] is [Ok v]; if it throws
    [x], [fromException fn] is [Err x], the payload being the thrown value
    itself (for an object, the same address); the effects of [fn] on the
    heap are kept; [fromException fn] never completes with a throw. *)
Theorem fromException_spec :
  forall (E V : Type) (fn : unit -> JS E V) (h : Heap),
  (forall (v : V) (h' : Heap),
      fn tt h = (Normal v, h') ->
      fromException fn h = (Normal (Ok v), h')) /\
  (forall (x : E) (h' : Heap),
      fn tt h = (Throw x, h') ->
      fromException fn h = (Normal (Err x), h')) /\
  (exists (r : Result E V) (h' : Heap),
      fromException fn h = (Normal r, h')) /\
  (forall (x : E) (h' : Heap), fromException fn h <> (Throw x, h')).
Proof.
  intros E V fn h.
  assert (Hok : forall v h', fn tt h = (Normal v, h') ->
                             fromException fn h = (Normal (Ok v), h')).
  { intros v h' Hfn. unfold fromException. simpl. now rewrite Hfn. }
  assert (Herr : forall x h', fn tt h = (Throw x, h') ->
                              fromException fn h = (Normal (Err x), h')).
  { intros x h' Hfn. unfold fromException. simpl. now rewrite Hfn. }
  assert (Hret : exists r h', fromException fn h = (Normal r, h')).
  { destruct (fn tt h) as [[v|x] h'] eqn:Hfn.
    - exists (Ok v), h'. now apply Hok.
    - exists (Err x), h'. now apply Herr. }
  repeat split; try assumption.
  intros x h' Hthrow. destruct Hret as (r & h'' & Hr).
  rewrite Hr in Hthrow. discriminate.
Qed.

Lemma fromException_spec_witness :
  fromException (E := JSValue) (fun _ => ret 5%Z) [] = (Normal (Ok 5%Z), []) /\
  fromException (V := Z) (fun _ => e <- new_Error "x" ;; raise e) []
  = (Normal (Err (JSObject 0)), [ErrorObject "x"]).
Proof.
  split.
  - apply (proj1 (fromException_spec JSValue Z (fun _ => ret 5%Z) [])).
    reflexivity.
  - apply (proj1 (proj2 (fromException_spec JSValue Z
                           (fun _ => e <- new_Error "x" ;; raise e) []))).
    reflexivity.
Defined.

(** C7.  [fromOk (Ok v)] returns [v] and [fromOk (Err e)] throws [e] itself;
    [fromErr (Err e)] returns [e] and [fromErr (Ok v)] throws a newly
    allocated [Error]: its address was not in use before the call, so it
    differs from every value that existed then, the wrapped value included.
    [fromOk] throws only on a Failure and [fromErr] only on a Success. *)
Theorem fromOk_fromErr_spec :
  forall (E V : Type) (h : Heap),
  (forall v : V, fromOk (Ok v : Result E V) h = (Normal v, h)) /\
  (forall e : E, fromOk (Err e : Result E V) h = (Throw e, h)) /\
  (forall e : E, fromErr (Err e : Result E V) h = (Normal e, h)) /\
  (forall v : V,
      fromErr (Ok v : Result E V) h
      = (Throw (JSObject (length h)), h ++ [ErrorObject "fromErr was called with an Ok Result"])) /\
  nth_error h (length h) = None /\
  (forall x : JSValue, live h x -> JSObject (length h) <> x) /\
  (forall (v : JSValue) (x : JSValue) (h' : Heap),
      live h v ->
      fromErr (Ok v : Result E JSValue) h = (Throw x, h') ->
      x <> v /\ nth_error h' (length h) = Some (ErrorObject "fromErr was called with an Ok Result")) /\
  (forall r : Result E V,
      (exists x h', fromOk r h = (Throw x, h')) <-> isErr r = true) /\
  (forall r : Result E V,
      (exists x h', fromErr r h = (Throw x, h')) <-> isOk r = true).
Proof.
  intros E V h.
  repeat match goal with |- _ /\ _ => split end; try reflexivity.
  - apply fresh_not_allocated.
  - apply fresh_not_live.
  - intros v x h' Hlive Hthrow.
    unfold fromErr in Hthrow. run_methods. simpl in Hthrow.
    injection Hthrow as <- <-. split.
    + now apply fresh_not_live.
    + rewrite nth_error_app2 by apply Nat.le_refl.
      now rewrite Nat.sub_diag.
  - intros [e|v]; split.
    + reflexivity.
    + intros _. now exists e, h.
    + intros (x & h' & Hthrow). discriminate.
    + discriminate.
  - intros [e|v]; split.
    + intros (x & h' & Hthrow). discriminate.
    + discriminate.
    + reflexivity.
    + intros _. eexists _, _. reflexivity.
Qed.

Lemma fromOk_fromErr_spec_witness :
  JSObject 1 <> JSObject 0 /\
  nth_error [ErrorObject "m"; ErrorObject "fromErr was called with an Ok Result"] 1
  = Some (ErrorObject "fromErr was called with an Ok Result").
Proof.
  apply (proj1 (proj2 (proj2 (proj2 (proj2 (proj2 (proj2
           (fromOk_fromErr_spec string JSValue [ErrorObject "m"])))))))
           (JSObject 0) (JSObject 1)
           [ErrorObject "m"; ErrorObject "fromErr was called with an Ok Result"]).
  - simpl. lia.
  - reflexivity.
Defined.

(* ===================================================================== *)
(** ** Further laws of the combinators *)
(* ===================================================================== *)

(** X1.  [mapErr] is a functor on the error channel: mapping the identity
    returns the receiver, and two successive [mapErr]s are one [mapErr]
    with the composed callback, for every receiver and for callbacks with
    effects. *)
Theorem mapErr_functor_laws :
  forall (X E E1 E2 V : Type) (m : Result E V)
         (f : ErrMapFunction X E E1) (g : ErrMapFunction X E1 E2) (h : Heap),
  mapErr (X := X) m (pure (fun e => e)) h = (Normal m, h) /\
  (r <- mapErr m f ;; mapErr r g) h
  = mapErr m (fun e => e1 <- f e ;; g e1) h.
Proof.
  intros X E E1 E2 V m f g h. destruct m as [e|v]; run_methods.
  - split; [reflexivity|].
    destruct (f e h) as [[e1|x] h1]; simpl; [|reflexivity].
    destruct (g e1 h1) as [[e2|x] h2]; reflexivity.
  - split; reflexivity.
Qed.

(** X2.  [fmap] and [mapErr] commute: transforming the value and then the
    error is the same as transforming the error and then the value, since
    only one of the two callbacks runs. *)
Theorem fmap_mapErr_commute :
  forall (X E Eo V Vo : Type) (m : Result E V)
         (f : FmapFunction X V Vo) (g : ErrMapFunction X E Eo) (h : Heap),
  (r <- fmap m f ;; mapErr r g) h = (r <- mapErr m g ;; fmap r f) h.
Proof.
  intros X E Eo V Vo m f g h. destruct m as [e|v]; run_methods.
  - destruct (g e h) as [[e'|x] h1]; reflexivity.
  - destruct (f v h) as [[y|x] h1]; reflexivity.
Qed.

(** X3.  Right identity of [bind]: binding the factory [Ok] returns the
    receiver, Success or Failure, and leaves the heap as it was. *)
Theorem bind_right_identity :
  forall (X E V : Type) (m : Result E V) (h : Heap),
  bind (X := X) m (fun v => ret (Ok v)) h = (Normal m, h).
Proof.
  intros X E V m h. destruct m as [e|v]; reflexivity.
Qed.

(** X4.  [fmap] and [seq] are instances of [bind]: [m.fmap(f)] is
    [m.bind(v => Ok(f(v)))] and [m.seq(g)] is [m.bind(_ => g())]. *)
Theorem fmap_seq_via_bind :
  forall (X E V Vo : Type) (m : Result E V) (f : FmapFunction X V Vo)
         (g : SequenceFunction X E Vo) (h : Heap),
  fmap m f h = bind m (fun v => y <- f v ;; ret (Ok y)) h /\
  seq m g h = bind m (fun _ => g tt) h.
Proof.
  intros X E V Vo m f g h. destruct m as [e|v]; split; reflexivity.
Qed.

(** X5.  Catching what [fromOk] throws gives the Result back:
    [fromException(() => fromOk(r))] is [r] for every [r], with the heap
    unchanged. *)
Theorem fromException_fromOk :
  forall (E V : Type) (r : Result E V) (h : Heap),
  fromException (fun _ => fromOk r) h = (Normal r, h).
Proof.
  intros E V r h. destruct r as [e|v]; reflexivity.
Qed.

(** X6.  Unwrapping what [fromException] caught behaves as the function
    itself: [fromOk(fromException(fn))] returns what [fn()] returns, throws
    what [fn()] throws and has the same effect on the heap. *)
Theorem fromOk_fromException :
  forall (E V : Type) (fn : unit -> JS E V) (h : Heap),
  (r <- fromException fn ;; fromOk r) h = fn tt h.
Proof.
  intros E V fn h. unfold fromException, fromOk. simpl.
  destruct (fn tt h) as [[v|x] h']; reflexivity.
Qed.

(** X7.  [unbox] fuses with the combinators: unboxing with the two
    factories rebuilds the Result, and unboxing the outcome of [fmap],
    [mapErr] or [bind] is unboxing the receiver with the callback composed
    into the matching branch. *)
Theorem unbox_fusion :
  forall (X E Eo V Vo R : Type) (r : Result E V)
         (f : FmapFunction X V Vo) (g : ErrMapFunction X E Eo)
         (k : BindFunction X E V Vo)
         (okFn : Vo -> JS X R) (okFn' : V -> JS X R)
         (errFn : E -> JS X R) (errFn' : Eo -> JS X R) (h : Heap),
  unbox (X := X) r (fun v => ret (Ok v)) (fun e => ret (Err e)) h
    = (Normal r, h) /\
  (r' <- fmap r f ;; unbox r' okFn errFn) h
    = unbox r (fun v => y <- f v ;; okFn y) errFn h /\
  (r' <- mapErr r g ;; unbox r' okFn' errFn') h
    = unbox r okFn' (fun e => e' <- g e ;; errFn' e') h /\
  (r' <- bind r k ;; unbox r' okFn errFn) h
    = unbox r (fun v => r' <- k v ;; unbox r' okFn errFn) errFn h.
Proof.
  intros X E Eo V Vo R r f g k okFn okFn' errFn errFn' h.
  destruct r as [e|v]; run_methods; repeat split.
  - destruct (g e h) as [[e'|x] h1]; reflexivity.
  - destruct (f v h) as [[y|x] h1]; reflexivity.
Qed.

(** X8.  [isOk] and [isErr] agree with the branch [unbox] takes: unboxing
    with constant callbacks [true]/[false] computes [isOk], and with
    [false]/[true] computes [isErr]. *)
Theorem isOk_via_unbox :
  forall (X E V : Type) (r : Result E V) (h : Heap),
  unbox (X := X) r (fun _ => ret true) (fun _ => ret false) h
    = (Normal (isOk r), h) /\
  unbox (X := X) r (fun _ => ret false) (fun _ => ret true) h
    = (Normal (isErr r), h).
Proof.
  intros X E V r h. destruct r as [e|v]; split; reflexivity.
Qed.

(** X9.  [fmap] and [mapErr] keep the tag: when either returns, the Result
    it returns is a Success exactly when the receiver is.  [bind] and [seq]
    can turn a Success into a Failure but never a Failure into a Success. *)
Theorem combinators_tag :
  forall (X E Eo V Vo : Type) (r : Result E V) (h h' : Heap),
  (forall (f : FmapFunction X V Vo) (r' : Result E Vo),
      fmap r f h = (Normal r', h') -> isOk r' = isOk r) /\
  (forall (g : ErrMapFunction X E Eo) (r' : Result Eo V),
      mapErr r g h = (Normal r', h') -> isOk r' = isOk r) /\
  (forall (k : BindFunction X E V Vo) (r' : Result E Vo),
      bind r k h = (Normal r', h') -> isOk r' = true -> isOk r = true) /\
  (forall (s : SequenceFunction X E Vo) (r' : Result E Vo),
      seq r s h = (Normal r', h') -> isOk r' = true -> isOk r = true).
Proof.
  intros X E Eo V Vo r h h'. destruct r as [e|v]; run_methods; repeat split.
  - intros f r' Heq. injection Heq as <- _. reflexivity.
  - intros g r'. destruct (g e h) as [[e'|x] h1]; intros Heq.
    + injection Heq as <- _. reflexivity.
    + discriminate.
  - intros k r' Heq. injection Heq as <- _. auto.
  - intros s r' Heq. injection Heq as <- _. auto.
  - intros f r'. destruct (f v h) as [[y|x] h1]; intros Heq.
    + injection Heq as <- _. reflexivity.
    + discriminate.
  - intros g r' Heq. injection Heq as <- _. reflexivity.
Qed.

Lemma combinators_tag_witness :
  isOk (Ok 7%Z : Result string Z) = isOk (Ok 5%Z : Result string Z).
Proof.
  apply (proj1 (combinators_tag JSValue string string Z Z (Ok 5%Z)
                  [MockFunction 0] [MockFunction 1])
           (mock 0 (pure (fun v => v + 2)%Z)) (Ok 7%Z)).
  reflexivity.
Defined.

(** X10.  The combinators never throw on their own account: [fmap], [bind]
    and [seq] complete with a throw exactly when the receiver is a Success
    and the callback, called on it, throws; [mapErr] exactly when the
    receiver is a Failure and the callback throws.  The thrown value and
    the heap are the callback's. *)
Theorem combinators_throw_only_from_callback :
  forall (X E Eo V Vo : Type) (r : Result E V) (x : X) (h h' : Heap),
  (forall f : FmapFunction X V Vo,
      fmap r f h = (Throw x, h')
      <-> exists v, r = Ok v /\ f v h = (Throw x, h')) /\
  (forall k : BindFunction X E V Vo,
      bind r k h = (Throw x, h')
      <-> exists v, r = Ok v /\ k v h = (Throw x, h')) /\
  (forall s : SequenceFunction X E Vo,
      seq r s h = (Throw x, h')
      <-> isOk r = true /\ s tt h = (Throw x, h')) /\
  (forall g : ErrMapFunction X E Eo,
      mapErr r g h = (Throw x, h')
      <-> exists e, r = Err e /\ g e h = (Throw x, h')).
Proof.
  intros X E Eo V Vo r x h h'. split; [|split; [|split]].
  - intros f. destruct r as [e|v]; run_methods; split.
    + discriminate.
    + intros (v & Hr & _). discriminate.
    + intros Hf. exists v. split; [reflexivity|].
      destruct (f v h) as [[y|x'] h1]; [discriminate|].
      injection Hf as -> ->. reflexivity.
    + intros (v0 & Hr & Hf). injection Hr as <-. now rewrite Hf.
  - intros k. destruct r as [e|v]; run_methods; split.
    + discriminate.
    + intros (v & Hr & _). discriminate.
    + intros Hk. now exists v.
    + intros (v0 & Hr & Hk). injection Hr as <-. exact Hk.
  - intros s. destruct r as [e|v]; run_methods; split.
    + discriminate.
    + intros [Hr _]. discriminate.
    + intros Hs. now split.
    + intros [_ Hs]. exact Hs.
  - intros g. destruct r as [e|v]; run_methods; split.
    + intros Hg. exists e. split; [reflexivity|].
      destruct (g e h) as [[e'|x'] h1]; [discriminate|].
      injection Hg as -> ->. reflexivity.
    + intros (e0 & Hr & Hg). injection Hr as <-. now rewrite Hg.
    + discriminate.
    + intros (e & Hr & _). discriminate.
Qed.

Lemma combinators_throw_only_from_callback_witness :
  fmap (E := string) (Ok 5%Z) (mock 0 (fun _ : Z => raise (T := Z) JSNull))
       [MockFunction 0]
  = (Throw JSNull, [MockFunction 1]).
Proof.
  apply (proj2 (proj1 (combinators_throw_only_from_callback
                         JSValue string string Z Z (Ok 5%Z) JSNull
                         [MockFunction 0] [MockFunction 1])
                  (mock 0 (fun _ : Z => raise (T := Z) JSNull)))).
  exists 5%Z. split; reflexivity.
Defined.

(** A chain applied to a Failure returns it. *)
Lemma run_chain_Err :
  forall (X E : Type)
         (defaultThen : forall V Vo : Type,
             V -> BindOrSequenceFunction X E V Vo -> JS X (Result E Vo))
         (V V' : Type) (c : Chain X E V V') (e : E) (h : Heap),
  run_chain defaultThen c (Err e) h = (Normal (Err e), h).
Proof.
  intros X E defaultThen V V' c e h.
  induction c; simpl; auto.
Qed.

(** X11.  Short circuit: when the callback of a [bind] or [seq] on a
    Success returns a Failure, every call chained after it is skipped: the
    chain returns that Failure, and the heap is the one that callback left. *)
Theorem chain_short_circuit :
  forall (X E : Type)
         (defaultThen : forall V Vo : Type,
             V -> BindOrSequenceFunction X E V Vo -> JS X (Result E Vo))
         (V Vo V' : Type) (c : Chain X E Vo V') (v : V) (e : E)
         (h h' : Heap),
  (forall f : BindFunction X E V Vo,
      f v h = (Normal (Err e), h') ->
      run_chain defaultThen (CallBind f c) (Ok v) h = (Normal (Err e), h')) /\
  (forall g : SequenceFunction X E Vo,
      g tt h = (Normal (Err e), h') ->
      run_chain defaultThen (CallSeq g c) (Ok v) h = (Normal (Err e), h')).
Proof.
  intros X E defaultThen V Vo V' c v e h h'. split.
  - intros f Hf. simpl. unfold _Ok_bind. rewrite Hf. apply run_chain_Err.
  - intros g Hg. simpl. unfold _Ok_seq. rewrite Hg. apply run_chain_Err.
Qed.

Lemma chain_short_circuit_witness :
  run_chain (X := JSValue) defaultThen_spec
    (CallBind (mock 0 (fun _ : Z => ret (Err "bad")))
       (CallFmap (mock 1 (pure (fun v => v / 11)%Z)) Done))
    (Ok 7%Z) [MockFunction 0; MockFunction 0]
  = (Normal (Err "bad"), [MockFunction 1; MockFunction 0]).
Proof.
  apply (proj1 (chain_short_circuit JSValue string defaultThen_spec Z Z Z
                  (CallFmap (mock 1 (pure (fun v => v / 11)%Z)) Done)
                  7%Z "bad" [MockFunction 0; MockFunction 0]
                  [MockFunction 1; MockFunction 0])).
  reflexivity.
Defined.

(** X12.  Success is absorbing under [mapErr]: whatever chain of [mapErr]
    calls is applied to [Ok v], it returns [Ok v] and leaves the heap as it
    was, whatever the callbacks are. *)
Theorem success_absorbing_mapErr :
  forall (X V E E' : Type) (c : ErrChain X E E') (v : V) (h : Heap),
  run_err_chain c (Ok v) h = (Normal (Ok v), h).
Proof.
  intros X V E E' c v h. induction c as [E|E Eo E' f c' IH]; simpl.
  - reflexivity.
  - apply IH.
Qed.



(** X14.  The unwrapping functions determine their argument: if [fromOk r]
    returns [v] then [r] is [Ok v]; if it throws [x] then [r] is [Err x];
    if [fromErr r] returns [e] then [r] is [Err e].  In all three cases the
    heap is unchanged. *)
Theorem fromOk_fromErr_inversion :
  forall (E V : Type) (r : Result E V) (h h' : Heap),
  (forall v : V, fromOk r h = (Normal v, h') -> r = Ok v /\ h' = h) /\
  (forall x : E, fromOk r h = (Throw x, h') -> r = Err x /\ h' = h) /\
  (forall e : E, fromErr r h = (Normal e, h') -> r = Err e /\ h' = h).
Proof.
  intros E V r h h'. destruct r as [e|v].
  - split; [|split].
    + intros v Heq. discriminate.
    + intros x Heq. injection Heq as <- <-. now split.
    + intros e' Heq. injection Heq as <- <-. now split.
  - split; [|split].
    + intros v' Heq. injection Heq as <- <-. now split.
    + intros x Heq. discriminate.
    + intros e Heq. discriminate.
Qed.

Lemma fromOk_fromErr_inversion_witness :
  (Ok 5%Z : Result string Z) = Ok 5%Z /\ [MockFunction 2] = [MockFunction 2].
Proof.
  apply (proj1 (fromOk_fromErr_inversion string Z (Ok 5%Z)
                  [MockFunction 2] [MockFunction 2]) 5%Z).
  reflexivity.
Defined.
